(** * A static website stack: S3 bucket, CloudFront, ACM certificate, Route 53

    Shallow embedding of [lib/website-stack.ts] (the [WebsiteStack]
    constructor) and of [bin/cdk.ts] (the program that instantiates it for a
    production and a development target).

    The constructor is a straight-line sequence of calls into the CDK
    construct library, each with the stack as scope.  The library is not
    part of the repository: it is a parameter of the development.  A call
    is modelled by what the constructor hands to it (an id and props), in
    the order of the calls, and the library may refuse any call by
    throwing, which ends the constructor.  What the library does beyond
    that (constructs it adds on its own, context lookups, synthesis) is
    outside this development. *)

From stdpp Require Import base option list strings gmap.

(** ** ECMAScript preliminaries *)

(** A call completes normally with a value or abruptly with a thrown
    error.  [ConfigurationError] and [ProvisioningError] are the classes of
    the design's taxonomy; the sources define no error class and contain no
    [throw] statement.  [LibraryError] is an error thrown inside a call of
    the construct library. *)
Inductive Error :=
| ConfigurationError (message : string)
| ProvisioningError (message : string)
| LibraryError (message : string).

Inductive completion (A : Type) :=
| Returned (a : A)
| Thrown (e : Error).
Arguments Returned {A} a.
Arguments Thrown {A} e.

(** [`${v}`]: a template literal converts its operand with ToString, so a
    missing property prints as ["undefined"]. *)
Definition template (v : option string) : string :=
  match v with
  | Some s => s
  | None => "undefined"
  end.

(** [v || d] on a value that is a string or [undefined]: both [undefined]
    and the empty string are falsy. *)
Definition or_else (v : option string) (d : string) : string :=
  match v with
  | Some s => if decide (s = "") then d else s
  | None => d
  end.

(** ** The construct library, as far as the stack uses it *)

(** A reference to a construct of the stack: its id under the stack. *)
Definition handle := string.

(** A string that may only be known at deploy time. *)
Inductive Token :=
| Str (s : string)
| GetAtt (node : handle) (attribute : string)
| ArnForObjects (bucket : handle) (keyPattern : string).

Module Duration.
Inductive t := seconds (amount : nat).
Definition toSeconds (d : t) : nat := let 'seconds n := d in n.
End Duration.

Module RemovalPolicy.
Inductive t := DESTROY | RETAIN | SNAPSHOT | RETAIN_ON_UPDATE_OR_DELETE.
End RemovalPolicy.

Record Environment := {
  account : option string;
  region : option string
}.

Module iam.
Inductive Principal := CanonicalUserPrincipal (canonicalUserId : Token).
Record PolicyStatement := {
  actions : list string;
  resources : list Token;
  principals : list Principal
}.
End iam.

Module s3.
Module BlockPublicAccess.
Inductive t := BLOCK_ALL | BLOCK_ACLS.
End BlockPublicAccess.
Record BucketProps := {
  bucketName : string;
  publicReadAccess : bool;
  blockPublicAccess : BlockPublicAccess.t;
  removalPolicy : RemovalPolicy.t
}.
End s3.

(** [aws-route53-targets], imported under the name [targets]. *)
Module targets.
Inductive AliasTarget := CloudFrontTarget (distribution : handle).
End targets.

Module route53.
Record HostedZoneProviderProps := { domainName : string }.
(** The zone object returned by the lookup: the construct that stands for
    it and the query it answers. *)
Record IHostedZone := {
  zoneNode : handle;
  zoneQuery : HostedZoneProviderProps
}.
Module RecordTarget.
Inductive t := fromAlias (aliasTarget : targets.AliasTarget).
End RecordTarget.
(** [recordName] is optional; the constructor leaves it out for the apex
    record. *)
Record ARecordProps := {
  zone : IHostedZone;
  recordName : option string;
  target : RecordTarget.t
}.
End route53.

Module acm.
Module CertificateValidation.
Inductive t := fromDns (hostedZone : route53.IHostedZone).
End CertificateValidation.
(** [subjectAlternativeNames] is optional: the spread of [false] adds no
    property to the object literal. *)
Record CertificateProps := {
  domainName : string;
  validation : CertificateValidation.t;
  subjectAlternativeNames : option (list string)
}.
End acm.

Module cloudfront_origins.
Record S3Origin := {
  bucket : handle;
  originAccessIdentity : handle
}.
End cloudfront_origins.

Module cloudfront.
Record OriginAccessIdentityProps := { comment : string }.
Module ViewerProtocolPolicy.
Inductive t := HTTPS_ONLY | REDIRECT_TO_HTTPS | ALLOW_ALL.
End ViewerProtocolPolicy.
Record BehaviorOptions := {
  origin : cloudfront_origins.S3Origin;
  viewerProtocolPolicy : ViewerProtocolPolicy.t
}.
Record ErrorResponse := {
  httpStatus : nat;
  ttl : Duration.t;
  responseHttpStatus : nat;
  responsePagePath : string
}.
Record DistributionProps := {
  certificate : handle;
  domainNames : list string;
  defaultRootObject : string;
  defaultBehavior : BehaviorOptions;
  errorResponses : list ErrorResponse
}.
End cloudfront.

(** What a [new X(this, id, props)] or [X.fromLookup(this, id, props)]
    asks the library to create. *)
Inductive Construct :=
| HostedZoneLookup (p : route53.HostedZoneProviderProps)
| OriginAccessIdentity (p : cloudfront.OriginAccessIdentityProps)
| Bucket (p : s3.BucketProps)
| Certificate (p : acm.CertificateProps)
| Distribution (p : cloudfront.DistributionProps)
| ARecord (p : route53.ARecordProps)
| CfnOutput (value : Token).

(** A call of the constructor into the library: the creation of a
    construct under the stack, or [bucket.addToResourcePolicy(statement)]. *)
Inductive Call :=
| Create (id : string) (c : Construct)
| AddToResourcePolicy (bucket : handle) (statement : iam.PolicyStatement).

Definition Calls := list Call.

(** ** The stack *)

(** A constructed stack: the id and environment given to [super], the calls
    the constructor made, oldest first, and its two public fields. *)
Record Stack := {
  stackId : string;
  stackEnv : Environment;
  calls : Calls;
  siteBucket : handle;
  siteDistribution : handle
}.

(** The scope the stacks are created in: the app and its stacks so far. *)
Definition App := list Stack.

(** [this] while the constructor runs. *)
Record This := {
  this_scope : App;
  this_id : string;
  this_env : Environment;
  this_calls : Calls
}.

Definition record_call (c : Call) (this : This) : This :=
  {| this_scope := this_scope this; this_id := this_id this;
     this_env := this_env this; this_calls := this_calls this ++ [c] |}.

(** ** The library as a parameter *)

(** All this development assumes of the construct library: whether it
    refuses [super(scope, id, props)] of [Stack], and whether it refuses a
    call, given the stack as it is at that moment.  A refusal is the
    message of the error thrown. *)
Record Library := {
  refuses_stack : App -> string -> Environment -> option string;
  refuses : This -> Call -> option string
}.

(** ** The constructor monad: [this], and abrupt completion *)

Definition Ctor (A : Type) : Type := This -> completion A * This.

#[global] Instance Ctor_ret : MRet Ctor :=
  fun A a this => (Returned a, this).

#[global] Instance Ctor_bind : MBind Ctor :=
  fun A B k m this =>
    match m this with
    | (Returned a, this') => k a this'
    | (Thrown e, this') => (Thrown e, this')
    end.

(** A call into the library: it is made, and the library lets it return or
    throws. *)
Definition call (lib : Library) (c : Call) : Ctor unit :=
  fun this =>
    match refuses lib this c with
    | Some message => (Thrown (LibraryError message), record_call c this)
    | None => (Returned (), record_call c this)
    end.

(** [new X(this, id, props)]; the object it returns is referred to by its
    id. *)
Definition new (lib : Library) (id : string) (c : Construct) : Ctor handle :=
  _ ← call lib (Create id c);
  mret id.

(** [route53.HostedZone.fromLookup(this, id, query)] *)
Definition HostedZone_fromLookup (lib : Library) (id : string)
    (query : route53.HostedZoneProviderProps) : Ctor route53.IHostedZone :=
  node ← new lib id (HostedZoneLookup query);
  mret {| route53.zoneNode := node; route53.zoneQuery := query |}.

(** [bucket.addToResourcePolicy(statement)] *)
Definition addToResourcePolicy (lib : Library) (bucket : handle)
    (statement : iam.PolicyStatement) : Ctor unit :=
  call lib (AddToResourcePolicy bucket statement).

(** ** [WebsiteStackProps] *)

(** The union [ProdWebsiteStackProps | NonProdWebsiteStackProps] as the
    object the constructor receives: [isProd] is the discriminant,
    [siteSubDomain] is a property the production variant does not declare
    (and that a production object may still carry, being ignored). *)
Module props.
Record t := {
  domainName : string;
  isProd : bool;
  siteSubDomain : option string;
  env : option Environment
}.
End props.
Definition WebsiteStackProps : Type := props.t.


(** Validity of a configuration as the design's data model words it: a
    non-empty domain name, and either production or a non-empty subdomain.
    The constructor performs no such check. *)
Definition valid_config (p : WebsiteStackProps) : bool :=
  bool_decide (props.domainName p ≠ "") &&
  (props.isProd p ||
   match props.siteSubDomain p with
   | Some s => bool_decide (s ≠ "")
   | None => false
   end).

(** ** The constructor *)

(** [const siteSubDomain = props.isProd ? "www" : props.siteSubDomain] *)
Definition siteSubDomain (p : WebsiteStackProps) : option string :=
  if props.isProd p then Some "www" else props.siteSubDomain p.

(** [const siteDomain = `${siteSubDomain}.${props.domainName}`] *)
Definition siteDomain (p : WebsiteStackProps) : string :=
  template (siteSubDomain p) +:+ "." +:+ props.domainName p.

(** The body of the constructor after [super(...)]; it returns the two
    public fields [siteBucket] and [siteDistribution]. *)
Definition WebsiteStack_body (lib : Library) (p : WebsiteStackProps)
    : Ctor (handle * handle) :=
  let siteDomain := siteDomain p in
  zone ← HostedZone_fromLookup lib "Zone"
    {| route53.domainName := props.domainName p |};
  cloudfrontOAI ← new lib "cloudfront-OAI" (OriginAccessIdentity
    {| cloudfront.comment := "OAI for " +:+ siteDomain |});
  siteBucket ← new lib "SiteBucket" (Bucket
    {| s3.bucketName := siteDomain;
       s3.publicReadAccess := false;
       s3.blockPublicAccess := s3.BlockPublicAccess.BLOCK_ALL;
       s3.removalPolicy := RemovalPolicy.RETAIN |});
  _ ← addToResourcePolicy lib siteBucket
    {| iam.actions := ["s3:GetObject"];
       iam.resources := [ArnForObjects siteBucket "*"];
       iam.principals := [iam.CanonicalUserPrincipal
         (GetAtt cloudfrontOAI
            "cloudFrontOriginAccessIdentityS3CanonicalUserId")] |};
  certificate ← new lib "SiteCertificate" (Certificate
    {| acm.domainName := siteDomain;
       acm.validation := acm.CertificateValidation.fromDns zone;
       acm.subjectAlternativeNames :=
         if props.isProd p then Some [props.domainName p] else None |});
  siteDistribution ← new lib "SiteDistribution" (Distribution
    {| cloudfront.certificate := certificate;
       cloudfront.domainNames :=
         [siteDomain] ++ (if props.isProd p then [props.domainName p] else []);
       cloudfront.defaultRootObject := "index.html";
       cloudfront.defaultBehavior :=
         {| cloudfront.origin :=
              {| cloudfront_origins.bucket := siteBucket;
                 cloudfront_origins.originAccessIdentity := cloudfrontOAI |};
            cloudfront.viewerProtocolPolicy :=
              cloudfront.ViewerProtocolPolicy.REDIRECT_TO_HTTPS |};
       cloudfront.errorResponses :=
         [ {| cloudfront.httpStatus := 404;
              cloudfront.ttl := Duration.seconds 0;
              cloudfront.responseHttpStatus := 200;
              cloudfront.responsePagePath := "/index.html" |};
           {| cloudfront.httpStatus := 403;
              cloudfront.responseHttpStatus := 200;
              cloudfront.responsePagePath := "/index.html";
              cloudfront.ttl := Duration.seconds 0 |} ] |});
  _ ← new lib "SiteAliasRecord" (ARecord
    {| route53.zone := zone;
       route53.recordName := Some siteDomain;
       route53.target := route53.RecordTarget.fromAlias
         (targets.CloudFrontTarget siteDistribution) |});
  _ ← (if props.isProd p then
         _ ← new lib "SiteAliasRecordApex" (ARecord
           {| route53.zone := zone;
              route53.recordName := None;
              route53.target := route53.RecordTarget.fromAlias
                (targets.CloudFrontTarget siteDistribution) |});
         mret ()
       else mret ());
  _ ← new lib "Site" (CfnOutput (Str ("https://" +:+ siteDomain)));
  _ ← new lib "Bucket" (CfnOutput (GetAtt siteBucket "bucketName"));
  _ ← new lib "DistributionDomainName"
        (CfnOutput (GetAtt siteDistribution "distributionDomainName"));
  mret (siteBucket, siteDistribution).

(** [props.env?.account] *)
Definition env_account (p : WebsiteStackProps) : option string :=
  match props.env p with
  | Some e => account e
  | None => None
  end.

(** The [env] the constructor passes to [super]: the account of the props,
    the region fixed. *)
Definition super_env (p : WebsiteStackProps) : Environment :=
  {| account := env_account p; region := Some "us-east-1" |}.

(** The body run on the new stack, which has no calls yet. *)
Definition run_body (lib : Library) (scope : App) (id : string)
    (p : WebsiteStackProps) : completion (handle * handle) * This :=
  WebsiteStack_body lib p
    {| this_scope := scope; this_id := id; this_env := super_env p;
       this_calls := [] |}.

(** [new WebsiteStack(scope, id, props)]: [super(scope, id, ...)], which
    the library may refuse, then the body.  When the constructor returns,
    the stack is under [scope]. *)
Definition WebsiteStack (lib : Library) (scope : App) (id : string)
    (p : WebsiteStackProps) : completion (Stack * App) :=
  match refuses_stack lib scope id (super_env p) with
  | Some message => Thrown (LibraryError message)
  | None =>
      match run_body lib scope id p with
      | (Returned (bucket, distribution), this) =>
          let stack := {| stackId := id; stackEnv := super_env p;
                          calls := this_calls this;
                          siteBucket := bucket;
                          siteDistribution := distribution |} in
          Returned (stack, scope ++ [stack])
      | (Thrown e, _) => Thrown e
      end
  end.

(** The calls the constructor made, whether it returned or threw; the last
    one is the call that threw, if one did. *)
Definition attempted (lib : Library) (scope : App) (id : string)
    (p : WebsiteStackProps) : Calls :=
  match refuses_stack lib scope id (super_env p) with
  | Some _ => []
  | None => this_calls (run_body lib scope id p).2
  end.

(** ** [bin/cdk.ts] *)

(** [process.env] once [dotenv/config] has been loaded. *)
Definition prod_props (process_env : gmap string string) : WebsiteStackProps :=
  {| props.domainName := or_else (process_env !! "DOMAIN_NAME") "";
     props.isProd := true;
     props.siteSubDomain := None;
     props.env := Some {| account := process_env !! "CDK_ACCOUNT";
                          region := None |} |}.

Definition dev_props (process_env : gmap string string) : WebsiteStackProps :=
  {| props.domainName := or_else (process_env !! "DOMAIN_NAME") "";
     props.isProd := false;
     props.siteSubDomain := Some "dev";
     props.env := Some {| account := process_env !! "CDK_ACCOUNT";
                          region := None |} |}.

(** The program: a fresh app, then the two stacks in order; an error thrown
    by the first constructor ends the program. *)
Definition cdk (lib : Library) (process_env : gmap string string)
    : completion App :=
  let app : App := [] in
  match WebsiteStack lib app "WebsiteStack-Prod" (prod_props process_env) with
  | Returned (_, app) =>
      match WebsiteStack lib app "WebsiteStack-Dev" (dev_props process_env) with
      | Returned (_, app) => Returned app
      | Thrown e => Thrown e
      end
  | Thrown e => Thrown e
  end.

(** ** Reading a constructed stack *)

(** The constructs the constructor asked for, with their ids, oldest
    first.  The library may have added constructs of its own; they are not
    listed. *)
Definition created (s : Stack) : list (handle * Construct) :=
  omap (fun c => match c with Create id k => Some (id, k) | _ => None end)
       (calls s).

Definition constructs (s : Stack) : list Construct := (created s).*2.

(** The ids the constructor passed, in the order of the calls. *)
Definition ids (s : Stack) : list handle := (created s).*1.

Fixpoint find_in (this : list (handle * Construct)) (id : string)
    : option Construct :=
  match this with
  | [] => None
  | (k, c) :: rest => if String.eqb k id then Some c else find_in rest id
  end.

(** The construct the constructor created under [id], if any. *)
Definition find_created (s : Stack) (id : string) : option Construct :=
  find_in (created s) id.

Definition zoneLookups (s : Stack) : list route53.HostedZoneProviderProps :=
  omap (fun c => match c with HostedZoneLookup p => Some p | _ => None end)
       (constructs s).

Definition buckets (s : Stack) : list s3.BucketProps :=
  omap (fun c => match c with Bucket p => Some p | _ => None end)
       (constructs s).

Definition certificates (s : Stack) : list acm.CertificateProps :=
  omap (fun c => match c with Certificate p => Some p | _ => None end)
       (constructs s).

Definition distributions (s : Stack) : list cloudfront.DistributionProps :=
  omap (fun c => match c with Distribution p => Some p | _ => None end)
       (constructs s).

(** The DNS A records of the stack, in creation order. *)
Definition dnsRecords (s : Stack) : list route53.ARecordProps :=
  omap (fun c => match c with ARecord p => Some p | _ => None end)
       (constructs s).

(** The names a certificate covers: its primary domain, then its subject
    alternative names. *)
Definition covered (c : acm.CertificateProps) : list string :=
  acm.domainName c :: default [] (acm.subjectAlternativeNames c).

Definition certificateDomains (s : Stack) : list string :=
  certificates s ≫= covered.

Definition distributionDomains (s : Stack) : list string :=
  distributions s ≫= cloudfront.domainNames.

(** The domain of the zone a record is put in. *)
Definition recordZone (r : route53.ARecordProps) : string :=
  route53.domainName (route53.zoneQuery (route53.zone r)).

(** The statements added to bucket policies, each with its bucket. *)
Definition policies (s : Stack) : list (handle * iam.PolicyStatement) :=
  omap (fun c => match c with
                 | AddToResourcePolicy b st => Some (b, st)
                 | _ => None
                 end)
       (calls s).

(** The [CfnOutput]s of the stack with their ids. *)
Definition outputs (s : Stack) : list (handle * Token) :=
  omap (fun ic => match ic.2 with CfnOutput v => Some (ic.1, v) | _ => None end)
       (created s).

(** The construct a deploy-time string is read from, if any. *)
Definition token_refs (t : Token) : list handle :=
  match t with
  | Str _ => []
  | GetAtt node _ => [node]
  | ArnForObjects bucket _ => [bucket]
  end.

Definition construct_refs (c : Construct) : list handle :=
  match c with
  | HostedZoneLookup _ | OriginAccessIdentity _ | Bucket _ => []
  | Certificate p =>
      let 'acm.CertificateValidation.fromDns z := acm.validation p in
      [route53.zoneNode z]
  | Distribution p =>
      let o := cloudfront.origin (cloudfront.defaultBehavior p) in
      [cloudfront.certificate p; cloudfront_origins.bucket o;
       cloudfront_origins.originAccessIdentity o]
  | ARecord p =>
      let 'route53.RecordTarget.fromAlias (targets.CloudFrontTarget d) :=
        route53.target p in
      [route53.zoneNode (route53.zone p); d]
  | CfnOutput v => token_refs v
  end.

(** The constructs whose objects are passed in a call. *)
Definition references (c : Call) : list handle :=
  match c with
  | Create _ k => construct_refs k
  | AddToResourcePolicy bucket st =>
      bucket :: (iam.resources st ≫= token_refs) ++
      (iam.principals st ≫=
         fun pr => let 'iam.CanonicalUserPrincipal t := pr in token_refs t)
  end.

(** Every call refers only to constructs created by earlier calls;
    [earlier] are the ids already present. *)
Fixpoint defined_before (earlier : list handle) (cs : Calls) : bool :=
  match cs with
  | [] => true
  | c :: rest =>
      forallb (fun h => existsb (String.eqb h) earlier) (references c)
      && defined_before
           (earlier ++ match c with Create id _ => [id] | _ => [] end) rest
  end.


(** ** Two libraries *)

(** The library that refuses nothing: what the constructor does when no
    call throws. *)
Definition permissive : Library :=
  {| refuses_stack := fun _ _ _ => None;
     refuses := fun _ _ => None |}.

Definition lower_or_digit (c : Ascii.ascii) : bool :=
  let n := Ascii.nat_of_ascii c in
  (Nat.leb 97 n && Nat.leb n 122) || (Nat.leb 48 n && Nat.leb n 57).

Definition is_dot (c : Ascii.ascii) : bool :=
  Nat.eqb (Ascii.nat_of_ascii c) 46.

Definition is_hyphen (c : Ascii.ascii) : bool :=
  Nat.eqb (Ascii.nat_of_ascii c) 45.

Definition bucket_char (c : Ascii.ascii) : bool :=
  lower_or_digit c || is_dot c || is_hyphen c.

(** No [".."], [".-"] or ["-."] *)
Fixpoint no_adjacent_symbols (l : list Ascii.ascii) : bool :=
  match l with
  | a :: (b :: _) as rest =>
      negb ((is_dot a && (is_dot b || is_hyphen b))
            || (is_hyphen a && is_dot b))
      && no_adjacent_symbols rest
  | _ => true
  end.

(** The S3 rules for a bucket name: 3 to 63 characters among lowercase
    letters, digits, dots and hyphens, a letter or digit at both ends, no
    two adjacent symbols one of which is a dot. *)
Definition bucket_name_ok (name : string) : bool :=
  let l := String.list_ascii_of_string name in
  Nat.leb 3 (length l) && Nat.leb (length l) 63
  && forallb bucket_char l
  && from_option lower_or_digit false (head l)
  && from_option lower_or_digit false (last l)
  && no_adjacent_symbols l.

(** A library for the examples.  It refuses a stack id already in the
    scope, a zone lookup on a stack without account or for an empty domain
    name, and a bucket whose name breaks the S3 rules, as the CDK does; it
    refuses nothing else.  It is one library among those the theorems
    quantify over. *)
Definition sample_library : Library :=
  {| refuses_stack := fun scope id _ =>
       if existsb (String.eqb id) (stackId <$> scope)
       then Some ("There is already a Construct with name " +:+ id)
       else None;
     refuses := fun this c =>
       match c with
       | Create _ (HostedZoneLookup q) =>
           if bool_decide (route53.domainName q = "")
           then Some "Cannot look up a hosted zone without a domain name"
           else match account (this_env this) with
                | None => Some "Cannot retrieve value from context provider hosted-zone since account/region are not specified at the stack level"
                | Some _ => None
                end
       | Create _ (Bucket b) =>
           if bucket_name_ok (s3.bucketName b) then None
           else Some ("Invalid S3 bucket name (value: " +:+ s3.bucketName b
                      +:+ ")")
       | _ => None
       end |}.

(** ** What a library can and cannot do to the constructor *)

(** Whatever [m] returns, [m'] returns as well, leaving the same [this]. *)
Definition returns_as {A : Type} (m m' : Ctor A) : Prop :=
  forall this a this',
    m this = (Returned a, this') -> m' this = (Returned a, this').

(** [m] throws nothing but errors of the library. *)
Definition throws_library_errors {A : Type} (m : Ctor A) : Prop :=
  forall this e this',
    m this = (Thrown e, this') -> exists message, e = LibraryError message.

(** ** Example configurations and environments *)

Definition example_env : option Environment :=
  Some {| account := Some "123456789012"; region := None |}.

Definition example_prod : WebsiteStackProps :=
  {| props.domainName := "example.com"; props.isProd := true;
     props.siteSubDomain := None; props.env := example_env |}.

Definition example_dev : WebsiteStackProps :=
  {| props.domainName := "example.com"; props.isProd := false;
     props.siteSubDomain := Some "dev"; props.env := example_env |}.

Definition example_staging : WebsiteStackProps :=
  {| props.domainName := "example.com"; props.isProd := false;
     props.siteSubDomain := Some "staging"; props.env := example_env |}.



(** A non-production object without the [siteSubDomain] property. *)
Definition example_untyped : WebsiteStackProps :=
  {| props.domainName := "example.com"; props.isProd := false;
     props.siteSubDomain := None; props.env := example_env |}.

Definition example_process_env : gmap string string :=
  {[ "DOMAIN_NAME" := "example.com"; "CDK_ACCOUNT" := "123456789012" ]}.



Ltac unfold_constructor_in H :=
  unfold WebsiteStack, attempted, run_body, WebsiteStack_body,
    HostedZone_fromLookup, addToResourcePolicy, new, call,
    mbind, mret, Ctor_bind, Ctor_ret in H.

(** * Properties *)

(** ** Strings *)

Lemma length_append (a b : string) :
  String.length (a +:+ b) = String.length a + String.length b.
Proof. induction a as [|c a IH]; simpl; [reflexivity | now rewrite IH]. Qed.

Lemma length_cons (x : Ascii.ascii) (a : string) :
  String.length (String x a) = S (String.length a).
Proof. reflexivity. Qed.

(** A name with a label in front of it is never the name itself. *)
Lemma label_dot_neq (l d : string) : l +:+ "." +:+ d ≠ d.
Proof.
  intros E. apply (f_equal String.length) in E.
  rewrite !length_append in E. simpl in E. lia.
Qed.

Lemma siteDomain_neq_apex (p : WebsiteStackProps) :
  siteDomain p ≠ props.domainName p.
Proof. apply label_dot_neq. Qed.

Lemma append_cancel_r (a b c : string) : a +:+ c = b +:+ c -> a = b.
Proof.
  revert b. induction a as [|x a IH]; intros [|y b] E.
  - reflexivity.
  - apply (f_equal String.length) in E.
    rewrite !length_append, length_cons in E. cbn in E. lia.
  - apply (f_equal String.length) in E.
    rewrite !length_append, length_cons in E. cbn in E. lia.
  - change (String x (a +:+ c) = String y (b +:+ c)) in E.
    injection E as -> E. f_equal. exact (IH _ E).
Qed.


Lemma or_else_present (s d : string) : s ≠ "" -> or_else (Some s) d = s.
Proof. intros Hs. unfold or_else. destruct (decide (s = "")); congruence. Qed.

(** ** A library can only refuse *)

Lemma returns_as_ret {A : Type} (a : A) : returns_as (mret a) (mret a).
Proof. intros this b this' H. exact H. Qed.

Lemma returns_as_bind {A B : Type} (m m' : Ctor A) (k k' : A -> Ctor B) :
  returns_as m m' -> (forall a, returns_as (k a) (k' a)) ->
  returns_as (m ≫= k) (m' ≫= k').
Proof.
  intros Hm Hk this b this''. unfold mbind, Ctor_bind.
  destruct (m this) as [[a|e] this'] eqn:E; [|discriminate].
  rewrite (Hm _ _ _ E). apply Hk.
Qed.

Lemma returns_as_call (lib : Library) (c : Call) :
  returns_as (call lib c) (call permissive c).
Proof.
  intros this a this'. unfold call. cbn.
  destruct (refuses lib this c); [discriminate | trivial].
Qed.

Lemma returns_as_new (lib : Library) (id : string) (c : Construct) :
  returns_as (new lib id c) (new permissive id c).
Proof.
  apply returns_as_bind; [apply returns_as_call | intros; apply returns_as_ret].
Qed.

Create HintDb ctor.
#[local] Hint Resolve returns_as_ret returns_as_call returns_as_new : ctor.
#[local] Hint Extern 2 (returns_as (_ ≫= _) (_ ≫= _)) =>
  apply returns_as_bind; [| intros ?] : ctor.

Lemma body_returns_as_permissive (lib : Library) (p : WebsiteStackProps) :
  returns_as (WebsiteStack_body lib p) (WebsiteStack_body permissive p).
Proof.
  unfold WebsiteStack_body, HostedZone_fromLookup, addToResourcePolicy.
  destruct (props.isProd p); auto 30 with ctor.
Qed.

(** If the constructor returns a stack under some library, it returns the
    same stack when nothing is refused. *)
Lemma returned_as_permissive (lib : Library) (scope : App) (id : string)
    (p : WebsiteStackProps) (s : Stack) (app : App) :
  WebsiteStack lib scope id p = Returned (s, app) ->
  WebsiteStack permissive scope id p = Returned (s, app).
Proof.
  unfold WebsiteStack, run_body. cbn [refuses_stack permissive].
  destruct (refuses_stack lib scope id (super_env p)); [discriminate|].
  destruct (WebsiteStack_body lib p _) as [[[b d]|e] this] eqn:E;
    [|discriminate].
  rewrite (body_returns_as_permissive lib p _ _ _ E). trivial.
Qed.


Lemma cdk_returned_as_permissive (lib : Library)
    (process_env : gmap string string) (app : App) :
  cdk lib process_env = Returned app -> cdk permissive process_env = Returned app.
Proof.
  unfold cdk.
  destruct (WebsiteStack lib [] _ (prod_props _)) as [[prod app1]|e] eqn:E1;
    [|discriminate].
  rewrite (returned_as_permissive _ _ _ _ _ _ E1).
  destruct (WebsiteStack lib app1 _ (dev_props _)) as [[dev app2]|e] eqn:E2;
    [|discriminate].
  rewrite (returned_as_permissive _ _ _ _ _ _ E2). trivial.
Qed.

(** ** The constructor throws nothing of its own *)

Lemma throws_library_errors_ret {A : Type} (a : A) :
  throws_library_errors (mret a : Ctor A).
Proof. intros this e this' H. discriminate H. Qed.

Lemma throws_library_errors_bind {A B : Type} (m : Ctor A) (k : A -> Ctor B) :
  throws_library_errors m -> (forall a, throws_library_errors (k a)) ->
  throws_library_errors (m ≫= k).
Proof.
  intros Hm Hk this e this''. unfold mbind, Ctor_bind.
  destruct (m this) as [[a|e'] this'] eqn:E.
  - apply Hk.
  - intros H. injection H as <- _. exact (Hm _ _ _ E).
Qed.

Lemma throws_library_errors_call (lib : Library) (c : Call) :
  throws_library_errors (call lib c).
Proof.
  intros this e this'. unfold call.
  destruct (refuses lib this c) as [message|]; [|discriminate].
  intros H. injection H as <- _. eexists; reflexivity.
Qed.

Lemma throws_library_errors_new (lib : Library) (id : string) (c : Construct) :
  throws_library_errors (new lib id c).
Proof.
  apply throws_library_errors_bind;
    [apply throws_library_errors_call
    | intros; apply throws_library_errors_ret].
Qed.

#[local] Hint Resolve throws_library_errors_ret throws_library_errors_call
  throws_library_errors_new : ctor.
#[local] Hint Extern 2 (throws_library_errors (_ ≫= _)) =>
  apply throws_library_errors_bind; [| intros ?] : ctor.




(** With distinct ids, a construct is found under its id. *)
Lemma find_in_member (this : list (handle * Construct)) (id : handle)
    (c : Construct) :
  NoDup this.*1 -> (id, c) ∈ this -> find_in this id = Some c.
Proof.
  induction this as [|[k c'] this IH]; intros Hnd Hin.
  - inversion Hin.
  - cbn in Hnd. apply NoDup_cons in Hnd as [Hk Hnd].
    apply elem_of_cons in Hin as [Heq | Hin]; cbn.
    + injection Heq as -> ->. now rewrite String.eqb_refl.
    + destruct (String.eqb k id) eqn:E.
      * apply String.eqb_eq in E. subst k. exfalso. apply Hk.
        apply list_elem_of_fmap. exists (id, c). split; [reflexivity | exact Hin].
      * exact (IH Hnd Hin).
Qed.

(** Turning a returned stack into the record of its calls. *)
Ltac built H :=
  apply returned_as_permissive in H;
  unfold_constructor_in H; cbn in H; injection H as <- <-.

(** ** Scenarios *)

Example scenario_A :
  exists s app,
    WebsiteStack sample_library [] "WebsiteStack-Prod" example_prod
    = Returned (s, app)
    /\ siteDomain example_prod = "www.example.com"
    /\ certificateDomains s = ["www.example.com"; "example.com"]
    /\ length (dnsRecords s) = 2.
Proof. eexists _, _. repeat split; reflexivity. Qed.

Example scenario_B :
  exists s app,
    WebsiteStack sample_library [] "WebsiteStack-Dev" example_dev
    = Returned (s, app)
    /\ siteDomain example_dev = "dev.example.com"
    /\ certificateDomains s = ["dev.example.com"]
    /\ length (dnsRecords s) = 1.
Proof. eexists _, _. repeat split; reflexivity. Qed.

(** Without an account the sample library refuses the zone lookup. *)
Example no_account_is_refused :
  exists message,
    WebsiteStack sample_library [] "WebsiteStack-Prod"
      {| props.domainName := "example.com"; props.isProd := true;
         props.siteSubDomain := None; props.env := None |}
    = Thrown (LibraryError message).
Proof. eexists. reflexivity. Qed.

(** ** Input validation (C1) *)




(** ** Production (C2, C4) *)

(** C2: whenever construction from a valid production configuration
    returns, the stack has one certificate and one distribution, the
    distribution uses that certificate, the certificate covers exactly
    [siteDomain] and the apex [domainName], two different names, and the
    distribution accepts exactly the same two; exactly two A records are
    created, both in the zone of [domainName]: the first named
    [siteDomain], the second created without a name, which is how the
    record of the zone's own name, the apex, is asked for. *)
Theorem production_domains (lib : Library) (scope : App) (id : string)
    (p : WebsiteStackProps) (s : Stack) (app : App) :
  valid_config p = true ->
  props.isProd p = true ->
  WebsiteStack lib scope id p = Returned (s, app) ->
  exists c d,
    certificates s = [c] /\ distributions s = [d]
    /\ find_created s (cloudfront.certificate d) = Some (Certificate c)
    /\ covered c = [siteDomain p; props.domainName p]
    /\ cloudfront.domainNames d = [siteDomain p; props.domainName p]
    /\ certificateDomains s = [siteDomain p; props.domainName p]
    /\ distributionDomains s = [siteDomain p; props.domainName p]
    /\ siteDomain p ≠ props.domainName p
    /\ length (dnsRecords s) = 2
    /\ route53.recordName <$> dnsRecords s = [Some (siteDomain p); None]
    /\ recordZone <$> dnsRecords s = [props.domainName p; props.domainName p].
Proof.
  intros _ Hprod H. pose proof (siteDomain_neq_apex p) as Hne.
  destruct p as [dn b sub e]; cbn in Hprod; subst b. built H.
  eexists _, _. repeat split; try reflexivity. exact Hne.
Qed.

Lemma production_domains_witness :
  exists s app c,
    WebsiteStack sample_library [] "WebsiteStack-Prod" example_prod
    = Returned (s, app)
    /\ valid_config example_prod = true
    /\ props.isProd example_prod = true
    /\ certificates s = [c]
    /\ covered c = ["www.example.com"; "example.com"]
    /\ length (dnsRecords s) = 2.
Proof.
  eexists _, _, _. split; [reflexivity|].
  split; [reflexivity|]. split; [reflexivity|].
  destruct (production_domains sample_library [] "WebsiteStack-Prod"
              example_prod _ _ eq_refl eq_refl eq_refl)
    as (c & d & Hc & _ & _ & Hcov & _ & _ & _ & _ & Hdns & _).
  injection Hc as <-.
  split; [reflexivity|]. split; [exact Hcov | exact Hdns].
Defined.

(** C4: for every valid production configuration the effective subdomain is
    the literal ["www"], whatever [siteSubDomain] the object carries, and so
    [siteDomain] is ["www." + domainName]. *)
Theorem production_subdomain_is_www (p : WebsiteStackProps)
    (supplied : option string) :
  valid_config p = true ->
  props.isProd p = true ->
  let q := {| props.domainName := props.domainName p;
              props.isProd := props.isProd p;
              props.siteSubDomain := supplied;
              props.env := props.env p |} in
  siteSubDomain q = Some "www" /\
  siteDomain q = "www." +:+ props.domainName p.
Proof.
  intros _ Hprod q. subst q. unfold siteDomain, siteSubDomain. cbn.
  rewrite Hprod. split; reflexivity.
Qed.

Lemma production_subdomain_is_www_witness :
  valid_config example_prod = true /\
  props.isProd example_prod = true /\
  siteDomain {| props.domainName := "example.com"; props.isProd := true;
                props.siteSubDomain := Some "staging";
                props.env := example_env |}
  = "www.example.com".
Proof.
  split; [reflexivity|]. split; [reflexivity|].
  exact (proj2 (production_subdomain_is_www example_prod (Some "staging")
                  eq_refl eq_refl)).
Defined.

(** ** Non-production (C3) *)

(** C3: for every valid non-production configuration with subdomain [sub],
    [siteDomain] is [sub + "." + domainName]; and whenever construction
    returns, the one certificate, the one distribution and the one A record
    carry that name only: the apex [domainName] is not among the names of
    the certificate or of the distribution, no record is named after it,
    and no record is created without a name. *)
Theorem non_production_domains (lib : Library) (scope : App) (id : string)
    (p : WebsiteStackProps) (sub : string) (s : Stack) (app : App) :
  valid_config p = true ->
  props.isProd p = false ->
  props.siteSubDomain p = Some sub ->
  WebsiteStack lib scope id p = Returned (s, app) ->
  siteDomain p = sub +:+ "." +:+ props.domainName p /\
  exists c d r,
    certificates s = [c] /\ distributions s = [d] /\ dnsRecords s = [r]
    /\ find_created s (cloudfront.certificate d) = Some (Certificate c)
    /\ certificateDomains s = [siteDomain p]
    /\ distributionDomains s = [siteDomain p]
    /\ route53.recordName r = Some (siteDomain p)
    /\ recordZone r = props.domainName p
    /\ (props.domainName p ∉ certificateDomains s)
    /\ (props.domainName p ∉ distributionDomains s)
    /\ (Some (props.domainName p) ∉ route53.recordName <$> dnsRecords s)
    /\ (None ∉ route53.recordName <$> dnsRecords s).
Proof.
  intros _ Hprod Hsub H. pose proof (siteDomain_neq_apex p) as Hne.
  assert (Hnotin : props.domainName p ∉ [siteDomain p]).
  { intros Hin. apply list_elem_of_singleton in Hin. congruence. }
  assert (Hnotin' : Some (props.domainName p) ∉ [Some (siteDomain p)]).
  { intros Hin. apply list_elem_of_singleton in Hin. congruence. }
  assert (Hnone : None ∉ [Some (siteDomain p)]).
  { intros Hin. apply list_elem_of_singleton in Hin. discriminate. }
  destruct p as [dn b sub' e]; cbn in Hprod, Hsub; subst b sub'. built H.
  split; [reflexivity|].
  eexists _, _, _. repeat split; try reflexivity; assumption.
Qed.

Lemma non_production_domains_witness :
  exists s app,
    WebsiteStack sample_library [] "WebsiteStack-Dev" example_dev
    = Returned (s, app)
    /\ valid_config example_dev = true
    /\ props.isProd example_dev = false
    /\ props.siteSubDomain example_dev = Some "dev"
    /\ siteDomain example_dev = "dev.example.com"
    /\ ("example.com" ∉ certificateDomains s).
Proof.
  eexists _, _. split; [reflexivity|].
  split; [reflexivity|]. split; [reflexivity|]. split; [reflexivity|].
  destruct (non_production_domains sample_library [] "WebsiteStack-Dev"
              example_dev "dev" _ _ eq_refl eq_refl eq_refl eq_refl)
    as (Hsd & c & d & r & _ & _ & _ & _ & _ & _ & _ & _ & Hnot & _).
  split; [exact Hsd | exact Hnot].
Defined.

(** ** Both modes (C5, C6, C7, C10) *)

(** C5: whenever construction from a valid configuration returns, the
    stack has one certificate and one distribution, the distribution uses
    that certificate, and the names the distribution accepts are exactly
    the names the certificate covers (its primary domain and its subject
    alternative names). *)
Theorem distribution_matches_certificate (lib : Library) (scope : App)
    (id : string) (p : WebsiteStackProps) (s : Stack) (app : App) :
  valid_config p = true ->
  WebsiteStack lib scope id p = Returned (s, app) ->
  exists c d,
    certificates s = [c] /\ distributions s = [d]
    /\ find_created s (cloudfront.certificate d) = Some (Certificate c)
    /\ cloudfront.domainNames d = covered c
    /\ distributionDomains s = certificateDomains s
    /\ (forall name, name ∈ cloudfront.domainNames d <-> name ∈ covered c)
    /\ (siteDomain p ∈ covered c).
Proof.
  intros _ H. destruct p as [dn [] sub e]; built H;
    eexists _, _; repeat split; try reflexivity; try tauto;
    apply list_elem_of_here.
Qed.

Lemma distribution_matches_certificate_witness :
  exists s app c d,
    WebsiteStack sample_library [] "WebsiteStack-Dev" example_dev
    = Returned (s, app)
    /\ valid_config example_dev = true
    /\ certificates s = [c] /\ distributions s = [d]
    /\ cloudfront.domainNames d = covered c.
Proof.
  eexists _, _, _, _. split; [reflexivity|]. split; [reflexivity|].
  destruct (distribution_matches_certificate sample_library []
              "WebsiteStack-Dev" example_dev _ _ eq_refl eq_refl)
    as (c & d & Hc & Hd & _ & Heq & _).
  injection Hc as <-. injection Hd as <-.
  split; [reflexivity|]. split; [reflexivity | exact Heq].
Defined.

(** C6: whenever construction from a valid configuration returns, one and
    the same [siteDomain] string is the name of the bucket, the primary
    domain of the certificate, the first domain name of the distribution
    and the name of the record [SiteAliasRecord]. *)
Theorem siteDomain_in_all_roles (lib : Library) (scope : App) (id : string)
    (p : WebsiteStackProps) (s : Stack) (app : App) :
  valid_config p = true ->
  WebsiteStack lib scope id p = Returned (s, app) ->
  exists b c d r,
    buckets s = [b] /\ certificates s = [c] /\ distributions s = [d]
    /\ head (dnsRecords s) = Some r
    /\ find_created s (siteBucket s) = Some (Bucket b)
    /\ s3.bucketName b = siteDomain p
    /\ find_created s (cloudfront.certificate d) = Some (Certificate c)
    /\ acm.domainName c = siteDomain p
    /\ find_created s (siteDistribution s) = Some (Distribution d)
    /\ head (cloudfront.domainNames d) = Some (siteDomain p)
    /\ find_created s "SiteAliasRecord" = Some (ARecord r)
    /\ route53.recordName r = Some (siteDomain p).
Proof.
  intros _ H. destruct p as [dn [] sub e]; built H;
    eexists _, _, _, _; repeat split; reflexivity.
Qed.

Lemma siteDomain_in_all_roles_witness :
  exists s app b,
    WebsiteStack sample_library [] "WebsiteStack-Dev" example_dev
    = Returned (s, app)
    /\ valid_config example_dev = true
    /\ buckets s = [b]
    /\ s3.bucketName b = "dev.example.com".
Proof.
  eexists _, _, _. split; [reflexivity|]. split; [reflexivity|].
  destruct (siteDomain_in_all_roles sample_library [] "WebsiteStack-Dev"
              example_dev _ _ eq_refl eq_refl)
    as (b & c & d & r & Hb & _ & _ & _ & _ & Hname & _).
  injection Hb as <-. split; [reflexivity | exact Hname].
Defined.

(** C7: whenever construction from a valid configuration returns, the one
    distribution has exactly two error responses, for origin status 404
    and 403; each answers with status 200 and the page [/index.html],
    cached for zero seconds. *)
Theorem error_responses_rewrite (lib : Library) (scope : App) (id : string)
    (p : WebsiteStackProps) (s : Stack) (app : App) :
  valid_config p = true ->
  WebsiteStack lib scope id p = Returned (s, app) ->
  exists d,
    distributions s = [d]
    /\ cloudfront.httpStatus <$> cloudfront.errorResponses d = [404; 403]
    /\ Forall (fun r =>
         cloudfront.responseHttpStatus r = 200 /\
         cloudfront.responsePagePath r = "/index.html" /\
         Duration.toSeconds (cloudfront.ttl r) = 0)
       (cloudfront.errorResponses d).
Proof.
  intros _ H. destruct p as [dn [] sub e]; built H;
    eexists; (split; [reflexivity|]); (split; [reflexivity|]);
    repeat constructor.
Qed.

Lemma error_responses_rewrite_witness :
  exists s app d,
    WebsiteStack sample_library [] "WebsiteStack-Prod" example_prod
    = Returned (s, app)
    /\ valid_config example_prod = true
    /\ distributions s = [d]
    /\ cloudfront.httpStatus <$> cloudfront.errorResponses d = [404; 403].
Proof.
  eexists _, _, _. split; [reflexivity|]. split; [reflexivity|].
  destruct (error_responses_rewrite sample_library [] "WebsiteStack-Prod"
              example_prod _ _ eq_refl eq_refl) as (d & Hd & Hst & _).
  injection Hd as <-. split; [reflexivity | exact Hst].
Defined.

(** C10: whenever construction returns, for any configuration, production
    or not, the stack has one bucket, [SiteBucket], created with removal
    policy [RETAIN]. *)
Theorem bucket_is_retained (lib : Library) (scope : App) (id : string)
    (p : WebsiteStackProps) (s : Stack) (app : App) :
  WebsiteStack lib scope id p = Returned (s, app) ->
  exists b,
    buckets s = [b]
    /\ find_created s "SiteBucket" = Some (Bucket b)
    /\ s3.removalPolicy b = RemovalPolicy.RETAIN.
Proof.
  intros H. destruct p as [dn [] sub e]; built H;
    eexists; repeat split; reflexivity.
Qed.

Lemma bucket_is_retained_witness :
  exists s app b,
    WebsiteStack sample_library [] "WebsiteStack-Prod" example_prod
    = Returned (s, app)
    /\ buckets s = [b]
    /\ s3.removalPolicy b = RemovalPolicy.RETAIN.
Proof.
  eexists _, _, _. split; [reflexivity|].
  destruct (bucket_is_retained sample_library [] "WebsiteStack-Prod"
              example_prod _ _ eq_refl) as (b & Hb & _ & Hpol).
  injection Hb as <-. split; [reflexivity | exact Hpol].
Defined.

(** ** The program with no domain name (C8) *)





(** ** Determinism (C9) *)

(** C9: the derived values depend on the configuration alone.  Whenever
    two constructions from objects with the same [domainName], [isProd]
    and [siteSubDomain] both return, under whatever scopes, ids and
    environments, they yield the same [siteDomain], the same certificate,
    the same distribution, the same DNS records; indeed the same calls. *)
Theorem resolution_is_deterministic (lib : Library) (scope1 scope2 : App)
    (id1 id2 : string) (p q : WebsiteStackProps)
    (s1 s2 : Stack) (app1 app2 : App) :
  props.domainName p = props.domainName q ->
  props.isProd p = props.isProd q ->
  props.siteSubDomain p = props.siteSubDomain q ->
  WebsiteStack lib scope1 id1 p = Returned (s1, app1) ->
  WebsiteStack lib scope2 id2 q = Returned (s2, app2) ->
  siteDomain p = siteDomain q /\
  exists c d r,
    certificates s1 = [c] /\ certificates s2 = [c]
    /\ distributions s1 = [d] /\ distributions s2 = [d]
    /\ head (dnsRecords s1) = Some r
    /\ dnsRecords s1 = dnsRecords s2
    /\ certificateDomains s1 = certificateDomains s2
    /\ distributionDomains s1 = distributionDomains s2
    /\ acm.domainName c = siteDomain p
    /\ calls s1 = calls s2.
Proof.
  intros Hd Hp Hs H1 H2.
  destruct p as [d1 b1 sub1 e1], q as [d2 b2 sub2 e2].
  cbn in Hd, Hp, Hs. subst d2 b2 sub2.
  split; [reflexivity|].
  destruct b1; built H1; built H2;
    eexists _, _, _; repeat split; reflexivity.
Qed.

Lemma resolution_is_deterministic_witness :
  let q := {| props.domainName := "example.com"; props.isProd := false;
              props.siteSubDomain := Some "dev";
              props.env := Some {| account := Some "210987654321";
                                   region := Some "eu-west-1" |} |} in
  exists s1 app1 s2 app2,
    WebsiteStack sample_library [] "WebsiteStack-Dev" example_dev
    = Returned (s1, app1)
    /\ WebsiteStack sample_library app1 "WebsiteStack-Again" q
       = Returned (s2, app2)
    /\ props.domainName example_dev = props.domainName q
    /\ props.isProd example_dev = props.isProd q
    /\ props.siteSubDomain example_dev = props.siteSubDomain q
    /\ calls s1 = calls s2.
Proof.
  intros q. eexists _, _, _, _.
  split; [reflexivity|]. split; [reflexivity|].
  split; [reflexivity|]. split; [reflexivity|]. split; [reflexivity|].
  match goal with
  | |- calls ?a = calls ?b =>
      destruct (resolution_is_deterministic sample_library [] [a]
                  "WebsiteStack-Dev" "WebsiteStack-Again" example_dev q
                  a b [a] [a; b] eq_refl eq_refl eq_refl eq_refl eq_refl)
        as (_ & c & d & r & _ & _ & _ & _ & _ & _ & _ & _ & _ & Hcalls)
  end.
  exact Hcalls.
Defined.

(** * Further properties of the constructor and of the program *)

(** ** The stack and the calls *)



(** X2: whenever construction returns, the ids the constructor has passed
    to the library are, in this order, those of the zone lookup, the access
    identity, the bucket, the certificate, the distribution, the alias
    record, (in production only) the apex alias record, and the three
    outputs; no id is passed twice, so each construct it asked for is found
    under its id. *)
Theorem ids_in_order (lib : Library) (scope : App) (id : string)
    (p : WebsiteStackProps) (s : Stack) (app : App) :
  WebsiteStack lib scope id p = Returned (s, app) ->
  ids s = ["Zone"; "cloudfront-OAI"; "SiteBucket"; "SiteCertificate";
           "SiteDistribution"; "SiteAliasRecord"]
          ++ (if props.isProd p then ["SiteAliasRecordApex"] else [])
          ++ ["Site"; "Bucket"; "DistributionDomainName"]
  /\ NoDup (ids s)
  /\ (forall k c, (k, c) ∈ created s -> find_created s k = Some c).
Proof.
  assert (Hnd1 : NoDup ["Zone"; "cloudfront-OAI"; "SiteBucket";
                   "SiteCertificate"; "SiteDistribution";
                   "SiteAliasRecord"; "SiteAliasRecordApex"; "Site"; "Bucket";
                   "DistributionDomainName"])
    by (apply (bool_decide_unpack _); vm_compute; exact I).
  assert (Hnd0 : NoDup ["Zone"; "cloudfront-OAI"; "SiteBucket";
                   "SiteCertificate"; "SiteDistribution";
                   "SiteAliasRecord"; "Site"; "Bucket";
                   "DistributionDomainName"])
    by (apply (bool_decide_unpack _); vm_compute; exact I).
  intros H. destruct p as [d [] sub e]; built H;
    (split; [reflexivity|]); (split; [assumption|]);
    intros k c; apply find_in_member; assumption.
Qed.

Lemma ids_in_order_witness :
  exists s app,
    WebsiteStack sample_library [] "WebsiteStack-Dev" example_dev
    = Returned (s, app)
    /\ NoDup (ids s)
    /\ length (ids s) = 9.
Proof.
  eexists _, _. split; [reflexivity|].
  destruct (ids_in_order sample_library [] "WebsiteStack-Dev" example_dev
              _ _ eq_refl) as (Hids & Hnd & _).
  split; [exact Hnd | reflexivity].
Defined.

(** X3: whenever construction returns, no call has referred to a construct
    that did not exist yet: the policy statement, the certificate, the
    distribution, the records and the outputs were each asked for after
    everything they are given. *)
Theorem references_defined_before (lib : Library) (scope : App) (id : string)
    (p : WebsiteStackProps) (s : Stack) (app : App) :
  WebsiteStack lib scope id p = Returned (s, app) ->
  defined_before [] (calls s) = true /\ 10 <= length (calls s).
Proof.
  intros H. destruct p as [d [] sub e]; built H; split;
    try reflexivity; cbn; lia.
Qed.

Lemma references_defined_before_witness :
  exists s app,
    WebsiteStack sample_library [] "WebsiteStack-Prod" example_prod
    = Returned (s, app)
    /\ defined_before [] (calls s) = true.
Proof.
  eexists _, _. split; [reflexivity|].
  exact (proj1 (references_defined_before sample_library []
                  "WebsiteStack-Prod" example_prod _ _ eq_refl)).
Defined.

(** The check is not vacuous: a record asked for before the distribution it
    points at is refused. *)
Example defined_before_refuses_forward_reference :
  defined_before ["Zone"]
    [Create "SiteAliasRecord" (ARecord
        {| route53.zone := {| route53.zoneNode := "Zone";
                              route53.zoneQuery :=
                                {| route53.domainName := "example.com" |} |};
           route53.recordName := None;
           route53.target := route53.RecordTarget.fromAlias
             (targets.CloudFrontTarget "SiteDistribution") |})] = false.
Proof. reflexivity. Qed.

(** ** Access to the bucket *)

(** X4: whenever construction returns, the one bucket refuses public reads
    and blocks all public access; one statement has been added to its
    policy, which allows only [s3:GetObject], only on the objects of that
    bucket, and only to the origin access identity through which the
    distribution reads that same bucket. *)
Theorem bucket_read_only_through_distribution (lib : Library) (scope : App)
    (id : string) (p : WebsiteStackProps) (s : Stack) (app : App) :
  WebsiteStack lib scope id p = Returned (s, app) ->
  exists b st d oai,
    buckets s = [b]
    /\ distributions s = [d]
    /\ policies s = [(siteBucket s, st)]
    /\ find_created s (siteBucket s) = Some (Bucket b)
    /\ s3.publicReadAccess b = false
    /\ s3.blockPublicAccess b = s3.BlockPublicAccess.BLOCK_ALL
    /\ iam.actions st = ["s3:GetObject"]
    /\ iam.resources st = [ArnForObjects (siteBucket s) "*"]
    /\ iam.principals st =
         [iam.CanonicalUserPrincipal
            (GetAtt (cloudfront_origins.originAccessIdentity
                       (cloudfront.origin (cloudfront.defaultBehavior d)))
                    "cloudFrontOriginAccessIdentityS3CanonicalUserId")]
    /\ cloudfront_origins.bucket
         (cloudfront.origin (cloudfront.defaultBehavior d)) = siteBucket s
    /\ find_created s
         (cloudfront_origins.originAccessIdentity
            (cloudfront.origin (cloudfront.defaultBehavior d)))
       = Some (OriginAccessIdentity oai)
    /\ cloudfront.comment oai = "OAI for " +:+ siteDomain p.
Proof.
  intros H. destruct p as [dn [] sub e]; built H;
    eexists _, _, _, _; repeat split; reflexivity.
Qed.

Lemma bucket_read_only_through_distribution_witness :
  exists s app st,
    WebsiteStack sample_library [] "WebsiteStack-Dev" example_dev
    = Returned (s, app)
    /\ policies s = [(siteBucket s, st)]
    /\ iam.actions st = ["s3:GetObject"].
Proof.
  eexists _, _, _. split; [reflexivity|].
  destruct (bucket_read_only_through_distribution sample_library []
              "WebsiteStack-Dev" example_dev _ _ eq_refl)
    as (b & st & d & oai & _ & _ & Hpol & _ & _ & _ & Hact & _).
  injection Hpol as <-. split; [reflexivity | exact Hact].
Defined.

(** ** Delivery over HTTPS *)

(** X5: whenever construction returns, the distribution stored in
    [siteDistribution] redirects viewers to HTTPS, serves [index.html] as
    root object, and uses the one certificate of the stack, which is
    validated through DNS in the hosted zone looked up for [domainName]. *)
Theorem distribution_is_https_with_dns_validated_certificate
    (lib : Library) (scope : App) (id : string) (p : WebsiteStackProps)
    (s : Stack) (app : App) :
  WebsiteStack lib scope id p = Returned (s, app) ->
  exists d c z,
    distributions s = [d]
    /\ certificates s = [c]
    /\ acm.validation c = acm.CertificateValidation.fromDns z
    /\ find_created s (siteDistribution s) = Some (Distribution d)
    /\ cloudfront.viewerProtocolPolicy (cloudfront.defaultBehavior d)
       = cloudfront.ViewerProtocolPolicy.REDIRECT_TO_HTTPS
    /\ cloudfront.defaultRootObject d = "index.html"
    /\ find_created s (cloudfront.certificate d) = Some (Certificate c)
    /\ find_created s (route53.zoneNode z)
       = Some (HostedZoneLookup
                 {| route53.domainName := props.domainName p |})
    /\ route53.zoneQuery z = {| route53.domainName := props.domainName p |}.
Proof.
  intros H. destruct p as [dn [] sub e]; built H;
    eexists _, _, _; repeat split; reflexivity.
Qed.

Lemma distribution_is_https_with_dns_validated_certificate_witness :
  exists s app d,
    WebsiteStack sample_library [] "WebsiteStack-Prod" example_prod
    = Returned (s, app)
    /\ distributions s = [d]
    /\ cloudfront.viewerProtocolPolicy (cloudfront.defaultBehavior d)
       = cloudfront.ViewerProtocolPolicy.REDIRECT_TO_HTTPS.
Proof.
  eexists _, _, _. split; [reflexivity|].
  destruct (distribution_is_https_with_dns_validated_certificate
              sample_library [] "WebsiteStack-Prod" example_prod _ _ eq_refl)
    as (d & c & z & Hd & _ & _ & _ & Hpol & _).
  injection Hd as <-. split; [reflexivity | exact Hpol].
Defined.

(** ** DNS records *)

(** X6: whenever construction returns, the stack has looked up one hosted
    zone, the one of [domainName]; every A record it has created is in that
    zone and is an alias of the stack's own distribution; there are two
    records in production and one otherwise. *)
Theorem records_alias_the_distribution (lib : Library) (scope : App)
    (id : string) (p : WebsiteStackProps) (s : Stack) (app : App) :
  WebsiteStack lib scope id p = Returned (s, app) ->
  zoneLookups s = [{| route53.domainName := props.domainName p |}]
  /\ length (dnsRecords s) = (if props.isProd p then 2 else 1)
  /\ Forall (fun r =>
       route53.target r
         = route53.RecordTarget.fromAlias
             (targets.CloudFrontTarget (siteDistribution s))
       /\ find_created s (route53.zoneNode (route53.zone r))
          = Some (HostedZoneLookup
                    {| route53.domainName := props.domainName p |})
       /\ recordZone r = props.domainName p)
     (dnsRecords s).
Proof.
  intros H. destruct p as [dn [] sub e]; built H;
    (split; [reflexivity|]); (split; [reflexivity|]);
    repeat constructor.
Qed.

Lemma records_alias_the_distribution_witness :
  exists s app,
    WebsiteStack sample_library [] "WebsiteStack-Prod" example_prod
    = Returned (s, app)
    /\ zoneLookups s = [{| route53.domainName := "example.com" |}]
    /\ length (dnsRecords s) = 2.
Proof.
  eexists _, _. split; [reflexivity|].
  destruct (records_alias_the_distribution sample_library []
              "WebsiteStack-Prod" example_prod _ _ eq_refl)
    as (Hzone & Hlen & _).
  split; [exact Hzone | exact Hlen].
Defined.

(** ** Outputs *)

(** X7: whenever construction returns, the stack has exactly three outputs,
    in this order: [Site], the literal URL ["https://" + siteDomain];
    [Bucket], the name of the site bucket; [DistributionDomainName], the
    domain name of the site distribution. *)
Theorem stack_outputs (lib : Library) (scope : App) (id : string)
    (p : WebsiteStackProps) (s : Stack) (app : App) :
  WebsiteStack lib scope id p = Returned (s, app) ->
  outputs s =
    [("Site", Str ("https://" +:+ siteDomain p));
     ("Bucket", GetAtt (siteBucket s) "bucketName");
     ("DistributionDomainName",
      GetAtt (siteDistribution s) "distributionDomainName")]
  /\ is_Some (find_created s (siteBucket s))
  /\ is_Some (find_created s (siteDistribution s)).
Proof.
  intros H. destruct p as [dn [] sub e]; built H;
    (split; [reflexivity|]); split; eexists; reflexivity.
Qed.

Lemma stack_outputs_witness :
  exists s app,
    WebsiteStack sample_library [] "WebsiteStack-Dev" example_dev
    = Returned (s, app)
    /\ head (outputs s) = Some ("Site", Str "https://dev.example.com").
Proof.
  eexists _, _. split; [reflexivity|].
  destruct (stack_outputs sample_library [] "WebsiteStack-Dev" example_dev
              _ _ eq_refl) as (Hout & _).
  rewrite Hout. reflexivity.
Defined.

(** ** Which site a configuration names *)

(** X8: two non-production configurations for one domain name the same
    site exactly when their subdomains are equal; whenever both
    constructions return, their buckets have the same name exactly when the
    subdomains are equal, so different subdomains never share a bucket
    name. *)
Theorem subdomains_separate_sites (lib : Library) (scope1 scope2 : App)
    (id1 id2 : string) (p q : WebsiteStackProps) (a b : string)
    (s1 s2 : Stack) (app1 app2 : App) :
  props.isProd p = false ->
  props.isProd q = false ->
  props.domainName p = props.domainName q ->
  props.siteSubDomain p = Some a ->
  props.siteSubDomain q = Some b ->
  WebsiteStack lib scope1 id1 p = Returned (s1, app1) ->
  WebsiteStack lib scope2 id2 q = Returned (s2, app2) ->
  (siteDomain p = siteDomain q <-> a = b)
  /\ s3.bucketName <$> buckets s1 = [siteDomain p]
  /\ s3.bucketName <$> buckets s2 = [siteDomain q]
  /\ (s3.bucketName <$> buckets s1 = s3.bucketName <$> buckets s2 <-> a = b).
Proof.
  intros Hp Hq Hd Ha Hb H1 H2.
  destruct p as [d1 b1 sub1 e1], q as [d2 b2 sub2 e2].
  cbn in Hp, Hq, Hd, Ha, Hb. subst b1 b2 d2 sub1 sub2.
  assert (Hiff : a +:+ "." +:+ d1 = b +:+ "." +:+ d1 <-> a = b).
  { split; [apply append_cancel_r | intros ->; reflexivity]. }
  built H1. built H2.
  split; [exact Hiff|]. split; [reflexivity|]. split; [reflexivity|].
  cbn. unfold siteDomain, siteSubDomain; cbn. rewrite <- Hiff.
  split; [intros E; injection E as E; exact E | intros ->; reflexivity].
Qed.

Lemma subdomains_separate_sites_witness :
  exists s1 app1 s2 app2,
    WebsiteStack sample_library [] "WebsiteStack-Dev" example_dev
    = Returned (s1, app1)
    /\ WebsiteStack sample_library app1 "WebsiteStack-Staging" example_staging
       = Returned (s2, app2)
    /\ (props.isProd example_dev = false /\
        props.isProd example_staging = false /\
        props.domainName example_dev = props.domainName example_staging /\
        props.siteSubDomain example_dev = Some "dev" /\
        props.siteSubDomain example_staging = Some "staging")
    /\ s3.bucketName <$> buckets s1 ≠ s3.bucketName <$> buckets s2.
Proof.
  eexists _, _, _, _. split; [reflexivity|]. split; [reflexivity|].
  split; [repeat split; reflexivity|].
  match goal with
  | |- _ <$> buckets ?x ≠ _ <$> buckets ?y =>
      destruct (subdomains_separate_sites sample_library [] [x]
                  "WebsiteStack-Dev" "WebsiteStack-Staging"
                  example_dev example_staging "dev" "staging" x y [x] [x; y]
                  eq_refl eq_refl eq_refl eq_refl eq_refl eq_refl eq_refl)
        as (_ & _ & _ & Hiff)
  end.
  intros E. apply Hiff in E. discriminate E.
Defined.



(** X10: a non-production object that carries no [siteSubDomain] at all is
    not refused by the constructor either: the template literal prints the
    missing property as ["undefined"], and whenever construction returns,
    bucket, certificate, distribution and record have been created for
    ["undefined." + domainName]. *)
Theorem missing_subdomain_prints_undefined (lib : Library) (scope : App)
    (id : string) (p : WebsiteStackProps) (s : Stack) (app : App) :
  props.isProd p = false ->
  props.siteSubDomain p = None ->
  WebsiteStack lib scope id p = Returned (s, app) ->
  siteDomain p = "undefined." +:+ props.domainName p
  /\ s3.bucketName <$> buckets s = ["undefined." +:+ props.domainName p]
  /\ certificateDomains s = ["undefined." +:+ props.domainName p]
  /\ distributionDomains s = ["undefined." +:+ props.domainName p]
  /\ route53.recordName <$> dnsRecords s
     = [Some ("undefined." +:+ props.domainName p)].
Proof.
  intros Hp Hsub H. destruct p as [d b sub e]. cbn in Hp, Hsub. subst b sub.
  built H. repeat split; reflexivity.
Qed.

Lemma missing_subdomain_prints_undefined_witness :
  exists s app,
    WebsiteStack sample_library [] "WebsiteStack-Dev" example_untyped
    = Returned (s, app)
    /\ props.isProd example_untyped = false
    /\ props.siteSubDomain example_untyped = None
    /\ s3.bucketName <$> buckets s = ["undefined.example.com"].
Proof.
  eexists _, _. split; [reflexivity|].
  split; [reflexivity|]. split; [reflexivity|].
  destruct (missing_subdomain_prints_undefined sample_library []
              "WebsiteStack-Dev" example_untyped _ _ eq_refl eq_refl eq_refl)
    as (_ & Hb & _).
  exact Hb.
Defined.

(** ** The program *)

(** X11: whenever the program returns, it has built exactly two stacks,
    [WebsiteStack-Prod] then [WebsiteStack-Dev], both for the account
    [CDK_ACCOUNT] in us-east-1 and both looking up the zone of the same
    domain name [d]; their buckets are named ["www." + d] and
    ["dev." + d], which are never the same name. *)
Theorem cdk_builds_prod_and_dev (lib : Library)
    (process_env : gmap string string) (app : App) :
  cdk lib process_env = Returned app ->
  let d := or_else (process_env !! "DOMAIN_NAME") "" in
  let e := {| account := process_env !! "CDK_ACCOUNT";
              region := Some "us-east-1" |} in
  exists prod dev,
    app = [prod; dev]
    /\ stackId prod = "WebsiteStack-Prod" /\ stackId dev = "WebsiteStack-Dev"
    /\ stackEnv prod = e /\ stackEnv dev = e
    /\ zoneLookups prod = [{| route53.domainName := d |}]
    /\ zoneLookups dev = [{| route53.domainName := d |}]
    /\ s3.bucketName <$> buckets prod = ["www." +:+ d]
    /\ s3.bucketName <$> buckets dev = ["dev." +:+ d]
    /\ s3.bucketName <$> buckets prod ≠ s3.bucketName <$> buckets dev.
Proof.
  intros H d e. subst d e. apply cdk_returned_as_permissive in H.
  unfold cdk, prod_props, dev_props in H. revert H.
  generalize (or_else (process_env !! "DOMAIN_NAME") "") as d.
  generalize (process_env !! "CDK_ACCOUNT") as acct. intros acct d H.
  unfold_constructor_in H; cbn in H. injection H as <-.
  eexists _, _. split; [reflexivity|].
  repeat split; try reflexivity.
  cbn. intros E. discriminate E.
Qed.

Lemma example_process_env_domain :
  example_process_env !! "DOMAIN_NAME" = Some "example.com".
Proof.
  unfold example_process_env. rewrite lookup_insert_eq. reflexivity.
Qed.

Lemma example_process_env_account :
  example_process_env !! "CDK_ACCOUNT" = Some "123456789012".
Proof.
  unfold example_process_env.
  rewrite lookup_insert_ne by discriminate. apply lookup_singleton_eq.
Qed.

Lemma example_process_env_runs :
  exists prod dev, cdk sample_library example_process_env = Returned [prod; dev].
Proof.
  unfold cdk, prod_props, dev_props.
  rewrite example_process_env_domain, example_process_env_account.
  eexists _, _. reflexivity.
Qed.

Lemma cdk_builds_prod_and_dev_witness :
  exists prod dev,
    cdk sample_library example_process_env = Returned [prod; dev]
    /\ stackId prod = "WebsiteStack-Prod" /\ stackId dev = "WebsiteStack-Dev"
    /\ s3.bucketName <$> buckets prod ≠ s3.bucketName <$> buckets dev.
Proof.
  destruct example_process_env_runs as (prod & dev & Hrun).
  exists prod, dev. split; [exact Hrun|].
  destruct (cdk_builds_prod_and_dev sample_library example_process_env _ Hrun)
    as (prod' & dev' & Happ & Hp & Hd & _ & _ & _ & _ & _ & _ & Hne).
  injection Happ as -> ->.
  split; [exact Hp|]. split; [exact Hd | exact Hne].
Defined.

(** X12: a [DOMAIN_NAME] that is set to the empty string is treated exactly
    like one that is not set: the two runs of the program give the same
    result. *)
Theorem empty_domain_name_is_as_absent (lib : Library)
    (process_env : gmap string string) :
  cdk lib (<["DOMAIN_NAME" := ""]> process_env)
  = cdk lib (delete "DOMAIN_NAME" process_env).
Proof.
  unfold cdk, prod_props, dev_props.
  rewrite lookup_insert_eq, lookup_delete_eq.
  rewrite lookup_insert_ne, lookup_delete_ne by discriminate.
  reflexivity.
Qed.

(** X13: when [DOMAIN_NAME] is set to a non-empty [d] and the program
    returns, the production stack covers ["www." + d] and [d] with its
    certificate and its distribution and has two A records, the first named
    ["www." + d], the second without a name; the development stack covers
    ["dev." + d] only and has the one record of that name. *)
Theorem cdk_with_domain_name (lib : Library)
    (process_env : gmap string string) (d : string) (app : App) :
  process_env !! "DOMAIN_NAME" = Some d ->
  d ≠ "" ->
  cdk lib process_env = Returned app ->
  exists prod dev,
    app = [prod; dev]
    /\ certificateDomains prod = ["www." +:+ d; d]
    /\ distributionDomains prod = ["www." +:+ d; d]
    /\ route53.recordName <$> dnsRecords prod = [Some ("www." +:+ d); None]
    /\ recordZone <$> dnsRecords prod = [d; d]
    /\ certificateDomains dev = ["dev." +:+ d]
    /\ distributionDomains dev = ["dev." +:+ d]
    /\ route53.recordName <$> dnsRecords dev = [Some ("dev." +:+ d)]
    /\ recordZone <$> dnsRecords dev = [d].
Proof.
  intros Hd Hne H. apply cdk_returned_as_permissive in H.
  unfold cdk, prod_props, dev_props in H.
  rewrite Hd, (or_else_present d "" Hne) in H.
  unfold_constructor_in H; cbn in H. injection H as <-.
  eexists _, _. repeat split; reflexivity.
Qed.

Lemma cdk_with_domain_name_witness :
  exists prod dev,
    cdk sample_library example_process_env = Returned [prod; dev]
    /\ example_process_env !! "DOMAIN_NAME" = Some "example.com"
    /\ "example.com" ≠ ""
    /\ certificateDomains prod = ["www.example.com"; "example.com"]
    /\ certificateDomains dev = ["dev.example.com"].
Proof.
  destruct example_process_env_runs as (prod & dev & Hrun).
  assert (Hne : "example.com" ≠ "") by discriminate.
  exists prod, dev. split; [exact Hrun|].
  split; [exact example_process_env_domain|]. split; [exact Hne|].
  destruct (cdk_with_domain_name sample_library example_process_env
              "example.com" _ example_process_env_domain Hne Hrun)
    as (prod' & dev' & Happ & Hp & _ & _ & _ & Hdv & _).
  injection Happ as -> ->.
  split; [exact Hp | exact Hdv].
Defined.
